(** * The /mcp request dispatcher of src/index.ts

    A shallow embedding of the Express handler [app.post('/mcp', ...)] and of
    the pieces of JavaScript it leans on: decoded JSON values, property
    access, truthiness, template-literal conversion, the two zod schemas, the
    [sessions] object with its prototype chain, and the single suspension
    point at the provider call. *)

From Stdlib Require Import ZArith String List Bool.
From Stdlib Require Import Floats.SpecFloat DecimalString.
From stdpp Require Import gmap strings.
Import ListNotations.

Open Scope string_scope.

(** ** JavaScript values *)

(** A JavaScript number is an IEEE-754 binary64 value. *)
Definition number : Set := spec_float.

(** The literal numbers of the source ([0] and [5000]). *)
Definition number_of_Z (z : Z) : number := binary_normalize 53 1024 z 0 false.

(** What [express.json()] decodes, plus [undefined] for a missing property. *)
#[warnings="-register-all"] Inductive value : Type :=
| VUndefined
| VNull
| VBool (b : bool)
| VNum (x : number)
| VStr (s : string)
| VArr (items : list value)
| VObj (fields : list (string * value)).

(** What a [throw] or a rejected promise carries: an instance of [Error]
    (Error, TypeError, ZodError, AxiosError: all have a [message]) or any
    other value. *)
Inductive thrown : Type :=
| Error_ (message : string)
| NotAnError (v : value).

Inductive outcome (A : Type) : Type :=
| Returned (a : A)
| Thrown (e : thrown).
Arguments Returned {A} a.
Arguments Thrown {A} e.

(** Sequencing: a throw skips the rest of the block. *)
#[global] Instance outcome_bind : MBind outcome := fun A B f o =>
  match o with
  | Returned a => f a
  | Thrown e => Thrown e
  end.

(** ** The zod schemas *)

#[warnings="-register-all"] Inductive zod : Type :=
| z_string
| z_number
| z_object (shape : list (string * zod))
| z_optional (inner : zod)
| z_describe (inner : zod) (description : string).

(** The faults the engine itself raises as a TypeError. *)
Inductive fault : Type :=
| destructure_nullish (v : value)   (* const { name } = undefined *)
| no_primitive                      (* `${ {toString: 1} }` *)
| property_of_undefined             (* undefined.initialized = true *)
| property_on_primitive.            (* true.initialized = true, strict mode *)

(** Texts that the engine and zod produce and the repository does not
    define.  Every theorem below holds whatever they are. *)
Record Runtime : Type := {
  Number_toString : number -> string;
  TypeError_message : fault -> string;
  ZodError_message : zod -> value -> string;
}.

Definition TypeError (rt : Runtime) (f : fault) : thrown :=
  Error_ (TypeError_message rt f).

Definition ZodError (rt : Runtime) (schema : zod) (input : value) : thrown :=
  Error_ (ZodError_message rt schema input).

(** ** Property access, truthiness, strict equality *)

Fixpoint own_property (fields : list (string * value)) (k : string) : option value :=
  match fields with
  | [] => None
  | (k', v) :: rest => if String.eqb k' k then Some v else own_property rest k
  end.

(** [v.k] for a [v] that is neither [undefined] nor [null], and a [k] that
    no built-in prototype defines (method, params, id, name, parameters and
    the schema keys): only an object's own property can answer. *)
Definition property (v : value) (k : string) : value :=
  match v with
  | VObj fields => default VUndefined (own_property fields k)
  | _ => VUndefined
  end.

Definition nullish (v : value) : bool :=
  match v with
  | VUndefined | VNull => true
  | _ => false
  end.

(** The object a destructuring pattern [const { ... } = v] reads from. *)
Definition destructure (rt : Runtime) (v : value) : outcome value :=
  if nullish v then Thrown (TypeError rt (destructure_nullish v)) else Returned v.

Definition number_truthy (x : number) : bool :=
  match x with
  | S754_zero _ | S754_nan => false
  | _ => true
  end.

Definition truthy (v : value) : bool :=
  match v with
  | VUndefined | VNull => false
  | VBool b => b
  | VNum x => number_truthy x
  | VStr s => negb (String.eqb s "")
  | VArr _ | VObj _ => true
  end.

(** [a || b] *)
Definition or_else (a b : value) : value := if truthy a then a else b.

(** [v === 'text'] *)
Definition is_text (v : value) (text : string) : bool :=
  match v with
  | VStr s => String.eqb s text
  | _ => false
  end.

(** ** Template literals: ToString *)

Fixpoint join (parts : list string) : string :=
  match parts with
  | [] => ""
  | [s] => s
  | s :: rest => s ++ "," ++ join rest
  end.

Fixpoint sequence {A} (os : list (outcome A)) : outcome (list A) :=
  match os with
  | [] => Returned []
  | o :: rest => a ← o; l ← sequence rest; Returned (a :: l)
  end.

Section ToString.
Variable rt : Runtime.

(** An object with an own [toString] key (never callable in decoded JSON)
    has no primitive value; any other object prints as [object Object].
    Array.prototype.join prints undefined and null elements as empty. *)
Fixpoint ToString (v : value) : outcome string :=
  match v with
  | VUndefined => Returned "undefined"
  | VNull => Returned "null"
  | VBool true => Returned "true"
  | VBool false => Returned "false"
  | VNum x => Returned (Number_toString rt x)
  | VStr s => Returned s
  | VArr items =>
      parts ← sequence (map (fun item => if nullish item then Returned ""
                                         else ToString item) items);
      Returned (join parts)
  | VObj fields =>
      match own_property fields "toString" with
      | Some _ => Thrown (TypeError rt no_primitive)
      | None => Returned "[object Object]"
      end
  end.
End ToString.

(** The decimal text of an array length. *)
Definition length_text (n : nat) : string :=
  NilEmpty.string_of_uint (Nat.to_uint n).

(** ** zod: [schema.parse(input)] *)

(** [None] stands for the ZodError that [parse] throws.  A string schema
    takes strings only, a number schema numbers other than NaN, an optional
    schema also [undefined]; an object schema takes objects (not null, not
    arrays), parses each key of its shape and drops every other key. *)
Fixpoint zod_parse (schema : zod) (input : value) : option value :=
  match schema with
  | z_string => match input with VStr _ => Some input | _ => None end
  | z_number =>
      match input with
      | VNum S754_nan => None
      | VNum _ => Some input
      | _ => None
      end
  | z_optional inner =>
      match input with
      | VUndefined => Some VUndefined
      | _ => zod_parse inner input
      end
  | z_describe inner _ => zod_parse inner input
  | z_object shape =>
      match input with
      | VObj fields =>
          (fix parse_shape (shape : list (string * zod)) : option (list (string * value)) :=
             match shape with
             | [] => Some []
             | (k, field) :: rest =>
                 match zod_parse field (default VUndefined (own_property fields k)),
                       parse_shape rest with
                 | Some VUndefined, Some parsed =>
                     Some (match own_property fields k with
                           | Some _ => (k, VUndefined) :: parsed
                           | None => parsed
                           end)
                 | Some v, Some parsed => Some ((k, v) :: parsed)
                 | _, _ => None
                 end
             end) shape
          ≫= (fun parsed => Some (VObj parsed))
      | _ => None
      end
  end.

Definition parse (rt : Runtime) (schema : zod) (input : value) : outcome value :=
  match zod_parse schema input with
  | Some parsed => Returned parsed
  | None => Thrown (ZodError rt schema input)
  end.

(** Geocoding tool schema *)
Definition geocodeSchema : zod :=
  z_object [("address", z_describe z_string "The address to geocode")].

(** Places search tool schema *)
Definition placesSearchSchema : zod :=
  z_object
    [("query", z_describe z_string "The search query");
     ("location",
      z_describe
        (z_optional
           (z_object [("lat", z_describe z_number "Latitude");
                      ("lng", z_describe z_number "Longitude")]))
        "Optional location to bias the search");
     ("radius", z_describe (z_optional z_number) "Optional radius in meters")].

(** ** The provider: @googlemaps/google-maps-services-js *)

Record LatLngLiteral : Type := { lat : number; lng : number }.

Record AddressGeometry : Type := { location : LatLngLiteral }.

(** The fields of a geocoding result that the handler reads. *)
Module GeocodeResult.
Record t : Type := {
  formatted_address : string;
  geometry : AddressGeometry;
  place_id : string;
}.
End GeocodeResult.

(** A place of the nearby search: every field may be missing. *)
Module PlaceData.
Record t : Type := {
  name : option string;
  geometry : option AddressGeometry;
  place_id : option string;
  types : option (list string);
  vicinity : option string;
}.
End PlaceData.

(** How an awaited promise settles. *)
Inductive settled (A : Type) : Type :=
| Fulfilled (a : A)
| Rejected (e : thrown).
Arguments Fulfilled {A} a.
Arguments Rejected {A} e.

(** [client.geocode] and [client.placesNearby], each taking the [params]
    object of the call and settling on [response.data.results]. *)
Record Client : Type := {
  geocode : value -> settled (list GeocodeResult.t);
  placesNearby : value -> settled (list PlaceData.t);
}.

(** A handler run up to its only suspension point: it is done, or it has
    issued one provider call and waits to continue on how that settles. *)
Inductive Async (R : Type) : Type :=
| Now (r : R)
| AwaitGeocode (params : value) (k : settled (list GeocodeResult.t) -> R)
| AwaitPlacesNearby (params : value) (k : settled (list PlaceData.t) -> R).
Arguments Now {R} r.
Arguments AwaitGeocode {R} params k.
Arguments AwaitPlacesNearby {R} params k.

Definition Async_map {R S} (f : R -> S) (a : Async R) : Async S :=
  match a with
  | Now r => Now (f r)
  | AwaitGeocode params k => AwaitGeocode params (fun s => f (k s))
  | AwaitPlacesNearby params k => AwaitPlacesNearby params (fun s => f (k s))
  end.

(** Running a suspended handler against a provider. *)
Definition settle {R} (client : Client) (a : Async R) : R :=
  match a with
  | Now r => r
  | AwaitGeocode params k => k (geocode client params)
  | AwaitPlacesNearby params k => k (placesNearby client params)
  end.

(** ** Responses *)

Record ToolDescriptor : Type := {
  tool_name : string;
  description : string;
  parameters : zod;
}.

Record PlaceSummary : Type := {
  summary_name : option string;
  summary_location : option LatLngLiteral;
  summary_place_id : option string;
  summary_types : option (list string);
  summary_vicinity : option string;
}.

Inductive data : Type :=
| geocode_data (location : LatLngLiteral) (formatted_address place_id : string)
| places_data (places : list PlaceSummary).

Inductive content : Type :=
| text_content (text : string)    (* { type: 'text', text } *)
| json_content (d : data).        (* { type: 'json', data } *)

Inductive result : Type :=
| initialize_result (server_name server_version : string)
                    (session_id : string) (tools : list ToolDescriptor)
| tool_result (contents : list content)
| null_result.

Inductive payload : Type :=
| result_of (r : result)
| error_of (code : Z) (message : string).

Record Envelope : Type := {
  jsonrpc : string;
  body_of : payload;
  id_of : value;
}.

Record Response : Type := { status : nat; json : Envelope }.

(** ** The session store *)

Record Session : Type := { initialized : bool }.

(** [sessions] is a plain object literal: a name it does not own is looked
    up on Object.prototype.  These are the names found there. *)
Definition Object_prototype_keys : list string :=
  ["constructor"; "__defineGetter__"; "__defineSetter__"; "hasOwnProperty";
   "__lookupGetter__"; "__lookupSetter__"; "isPrototypeOf";
   "propertyIsEnumerable"; "toString"; "valueOf"; "__proto__";
   "toLocaleString"].

(** The mutable state the handler reaches: the own properties of
    [sessions], and the built-in objects behind the inherited names that
    were given an [initialized] property ("__proto__" names Object.prototype
    itself). *)
Record Heap : Type := {
  sessions : gmap string Session;
  flagged : gset string;
}.

(** const sessions: Record<string, any> = {} *)
Definition startup : Heap := {| sessions := ∅; flagged := ∅ |}.

(** What [sessions[k]] evaluates to. *)
Inductive slot : Type :=
| a_session (s : Session)
| a_builtin (k : string)   (* Object.prototype[k]: a function, or the prototype *)
| inherited_true           (* Object.prototype.initialized, once it was set *)
| nothing.                 (* undefined *)

Definition sessions_get (h : Heap) (k : string) : slot :=
  match sessions h !! k with
  | Some s => a_session s
  | None =>
      if bool_decide (k ∈ Object_prototype_keys) then a_builtin k
      else if bool_decide (k = "initialized" ∧ "__proto__" ∈ flagged h)
           then inherited_true
           else nothing
  end.

(** const sessionId = req.headers['mcp-session-id'] as string || randomUUID() *)
Definition resolve (randomUUID : string) (header : option string) : string :=
  match header with
  | Some token => if String.eqb token "" then randomUUID else token
  | None => randomUUID
  end.

(** if (!sessions[sessionId]) sessions[sessionId] = { initialized: false } *)
Definition ensure_session (h : Heap) (sessionId : string) : Heap :=
  match sessions_get h sessionId with
  | nothing =>
      {| sessions := <[sessionId := {| initialized := false |}]> (sessions h);
         flagged := flagged h |}
  | _ => h
  end.

(** sessions[sessionId].initialized = true.  The file is a module, hence
    strict code: storing a property on the primitive [true] throws. *)
Definition set_initialized (rt : Runtime) (h : Heap) (sessionId : string)
  : outcome Heap :=
  match sessions_get h sessionId with
  | a_session _ =>
      Returned {| sessions := <[sessionId := {| initialized := true |}]> (sessions h);
                  flagged := flagged h |}
  | a_builtin k =>
      Returned {| sessions := sessions h; flagged := {[k]} ∪ flagged h |}
  | inherited_true => Thrown (TypeError rt property_on_primitive)
  | nothing => Thrown (TypeError rt property_of_undefined)
  end.

(** delete sessions[sessionId] *)
Definition delete_session (h : Heap) (sessionId : string) : Heap :=
  {| sessions := delete sessionId (sessions h); flagged := flagged h |}.

(** ** The handler *)

Record Request : Type := {
  mcp_session_id : option string;   (* req.headers['mcp-session-id'] *)
  body : value;                     (* req.body *)
}.

Definition tools_list : list ToolDescriptor :=
  [ {| tool_name := "geocode";
       description := "Convert an address to coordinates";
       parameters := geocodeSchema |};
    {| tool_name := "places-search";
       description := "Search for places using Google Places API";
       parameters := placesSearchSchema |} ].

Definition summary (place : PlaceData.t) : PlaceSummary :=
  {| summary_name := PlaceData.name place;
     summary_location := location <$> PlaceData.geometry place;
     summary_place_id := PlaceData.place_id place;
     summary_types := PlaceData.types place;
     summary_vicinity := PlaceData.vicinity place |}.

(** res.json({ jsonrpc: '2.0', result, id }) *)
Definition success (r : result) (id : value) : Response :=
  {| status := 200;
     json := {| jsonrpc := "2.0"; body_of := result_of r; id_of := id |} |}.

(** error instanceof Error ? error.message : 'Internal server error' *)
Definition message_of (e : thrown) : string :=
  match e with
  | Error_ message => message
  | NotAnError _ => "Internal server error"
  end.

(** The catch block. *)
Definition failure (e : thrown) (id : value) : Response :=
  {| status := 500;
     json := {| jsonrpc := "2.0";
                body_of := error_of (-32603) (message_of e);
                id_of := id |} |}.

Section Handler.
Variable rt : Runtime.
(** process.env.GOOGLE_MAPS_API_KEY *)
Variable GOOGLE_MAPS_API_KEY : option string.

Definition provider_key : value :=
  match GOOGLE_MAPS_API_KEY with
  | Some k => VStr k
  | None => VUndefined
  end.

(** case 'geocode' *)
Definition geocode_tool (tool_parameters : value) : Async (outcome result) :=
  match parse rt geocodeSchema tool_parameters with
  | Thrown e => Now (Thrown e)
  | Returned parsed =>
      let address := property parsed "address" in
      AwaitGeocode (VObj [("address", address); ("key", provider_key)])
        (fun response =>
           match response with
           | Rejected e => Thrown e
           | Fulfilled [] => Thrown (Error_ "No results found")
           | Fulfilled (first :: _) =>
               Returned
                 (tool_result
                    [text_content
                       ("Found location: " ++ GeocodeResult.formatted_address first);
                     json_content
                       (geocode_data
                          (location (GeocodeResult.geometry first))
                          (GeocodeResult.formatted_address first)
                          (GeocodeResult.place_id first))])
           end)
  end.

(** case 'places-search' *)
Definition places_search_tool (tool_parameters : value) : Async (outcome result) :=
  match parse rt placesSearchSchema tool_parameters with
  | Thrown e => Now (Thrown e)
  | Returned parsed =>
      let query := property parsed "query" in
      let location := property parsed "location" in
      let radius := property parsed "radius" in
      AwaitPlacesNearby
        (VObj [("location",
                or_else location
                  (VObj [("lat", VNum (number_of_Z 0)); ("lng", VNum (number_of_Z 0))]));
               ("radius", or_else radius (VNum (number_of_Z 5000)));
               ("keyword", query);
               ("key", provider_key)])
        (fun response =>
           match response with
           | Rejected e => Thrown e
           | Fulfilled results =>
               Returned
                 (tool_result
                    [text_content
                       ("Found " ++ length_text (length results) ++ " places");
                     json_content (places_data (map summary results))])
           end)
  end.

(** if (method === 'callTool') { const { name, parameters } = params; switch (name) ... } *)
Definition callTool (params : value) : Async (outcome result) :=
  match destructure rt params with
  | Thrown e => Now (Thrown e)
  | Returned p =>
      let name := property p "name" in
      let tool_parameters := property p "parameters" in
      if is_text name "geocode" then geocode_tool tool_parameters
      else if is_text name "places-search" then places_search_tool tool_parameters
      else Now (text ← ToString rt name;
                Thrown (Error_ ("Unknown tool: " ++ text)))
  end.

(** The [try] block: the heap it leaves, and the result it returns or
    the value it throws, now or once the provider call settles. *)
Definition attempt (randomUUID : string) (h : Heap) (header : option string)
           (method params : value) : Heap * Async (outcome result) :=
  let sessionId := resolve randomUUID header in
  let h := ensure_session h sessionId in
  if is_text method "initialize" then
    match set_initialized rt h sessionId with
    | Returned h' =>
        (h', Now (Returned (initialize_result "google-maps-mcp" "1.0.0"
                              sessionId tools_list)))
    | Thrown e => (h, Now (Thrown e))
    end
  else if is_text method "callTool" then (h, callTool params)
  else if is_text method "terminate" then
    (delete_session h sessionId, Now (Returned null_result))
  else (h, Now (text ← ToString rt method;
                Thrown (Error_ ("Unknown method: " ++ text)))).

(** What the [try]/[catch] sends for the block's outcome. *)
Definition respond (id : value) (o : outcome result) : Response :=
  match o with
  | Returned r => success r id
  | Thrown e => failure e id
  end.

(** app.post('/mcp', async (req, res) => { ... }).  The destructuring of
    [req.body] stands before the [try]: what it throws is not caught. *)
Definition mcp (randomUUID : string) (h : Heap) (req : Request)
  : outcome (Heap * Async Response) :=
  b ← destructure rt (body req);
  let method := property b "method" in
  let params := property b "params" in
  let id := property b "id" in
  let '(h', block) := attempt randomUUID h (mcp_session_id req) method params in
  Returned (h', Async_map (respond id) block).
End Handler.

(** ** What res.json puts on the wire *)

(** [res.json(body)] sends [JSON.stringify(body)].  This is the value a
    client reads back from the text sent for one property value [v]: a
    number that is not finite is sent as null and negative zero as 0; an
    undefined array element is sent as null; an object property holding
    undefined is left out, and so is the property itself when [v] is
    undefined.  Decoded JSON holds nothing callable, so no [toJSON] runs. *)
Fixpoint read_back (v : value) : value :=
  match v with
  | VUndefined => VUndefined
  | VNull => VNull
  | VBool b => VBool b
  | VNum (S754_finite s m e) => VNum (S754_finite s m e)
  | VNum (S754_zero _) => VNum (S754_zero false)
  | VNum (S754_infinity _) => VNull
  | VNum S754_nan => VNull
  | VStr s => VStr s
  | VArr items =>
      VArr (map (fun item => match item with
                             | VUndefined => VNull
                             | _ => read_back item
                             end) items)
  | VObj fields =>
      VObj ((fix sent (fields : list (string * value)) : list (string * value) :=
               match fields with
               | [] => []
               | (_, VUndefined) :: rest => sent rest
               | (k, item) :: rest => (k, read_back item) :: sent rest
               end) fields)
  end.

(** The values that come back as they were sent: no number that is
    infinite, NaN or negative zero, and no undefined below the top. *)
Fixpoint sent_intact (v : value) : bool :=
  match v with
  | VNum (S754_finite _ _ _) => true
  | VNum (S754_zero sign) => negb sign
  | VNum _ => false
  | VArr items =>
      forallb (fun item => match item with
                           | VUndefined => false
                           | _ => sent_intact item
                           end) items
  | VObj fields =>
      forallb (fun field => match field with
                            | (_, VUndefined) => false
                            | (_, item) => sent_intact item
                            end) fields
  | _ => true
  end.

(** * Properties *)

(** An arbitrary choice of the engine's texts, for the closed examples. *)
Definition plain_runtime : Runtime :=
  {| Number_toString := fun _ => "0";
     TypeError_message := fun _ => "TypeError";
     ZodError_message := fun _ _ => "ZodError" |}.

(** A provider that finds nothing. *)
Definition empty_client : Client :=
  {| geocode := fun _ => Fulfilled []; placesNearby := fun _ => Fulfilled [] |}.

(** The body { method, id } under an optional session header. *)
Definition request (header : option string) (method : string) (id : value) : Request :=
  {| mcp_session_id := header;
     body := VObj [("method", VStr method); ("id", id)] |}.

(** The body { method: 'callTool', params: { name, parameters }, id }. *)
Definition call (header : option string) (name : string) (tool_parameters id : value)
  : Request :=
  {| mcp_session_id := header;
     body := VObj [("method", VStr "callTool");
                   ("params", VObj [("name", VStr name);
                                    ("parameters", tool_parameters)]);
                   ("id", id)] |}.

(** The heap a request leaves behind.  The handler touches [sessions]
    only before its suspension point, so this is settled when the provider
    call is issued; a handler that threw before its [try] touched nothing. *)
Definition heap_after (rt : Runtime) (key : option string) (randomUUID : string)
           (h : Heap) (req : Request) : Heap :=
  match mcp rt key randomUUID h req with
  | Returned (h', _) => h'
  | Thrown _ => h
  end.

(** The heap after a sequence of requests, each paired with the token
    [randomUUID] holds for it. *)
Fixpoint serve (rt : Runtime) (key : option string)
         (requests : list (string * Request)) (h : Heap) : Heap :=
  match requests with
  | [] => h
  | (randomUUID, req) :: rest =>
      serve rt key rest (heap_after rt key randomUUID h req)
  end.

(** ** Shape of a run *)

Lemma property_defined_not_nullish v k :
  property v k <> VUndefined -> nullish v = false.
Proof. destruct v; simpl; congruence. Qed.

Lemma property_text_not_nullish v k s :
  property v k = VStr s -> nullish v = false.
Proof. intros H. apply (property_defined_not_nullish v k). congruence. Qed.

Lemma destructure_defined rt v : nullish v = false -> destructure rt v = Returned v.
Proof. unfold destructure. now intros ->. Qed.

(** With a body that can be destructured, the handler is the [try] block
    followed by [respond]. *)
Lemma mcp_runs rt key uuid h req :
  nullish (body req) = false ->
  mcp rt key uuid h req =
    Returned
      (fst (attempt rt key uuid h (mcp_session_id req)
              (property (body req) "method") (property (body req) "params")),
       Async_map (respond (property (body req) "id"))
         (snd (attempt rt key uuid h (mcp_session_id req)
                 (property (body req) "method") (property (body req) "params")))).
Proof.
  intros Hbody. unfold mcp. rewrite (destructure_defined rt _ Hbody). simpl.
  now destruct (attempt _ _ _ _ _ _ _).
Qed.

(** The destructuring of [req.body] is the one statement outside the
    [try]: with no decoded body at all, its TypeError is not caught. *)
Remark undecoded_body_escapes rt key uuid h header :
  mcp rt key uuid h {| mcp_session_id := header; body := VUndefined |}
  = Thrown (TypeError rt (destructure_nullish VUndefined)).
Proof. reflexivity. Qed.

Example number_zero : number_of_Z 0 = S754_zero false.
Proof. reflexivity. Qed.

(** 5000 = 5497558138880000 * 2^-40, with a 53-bit mantissa. *)
Example number_5000 : number_of_Z 5000 = S754_finite false 5497558138880000 (-40).
Proof. reflexivity. Qed.

Lemma settle_map {R S} (f : R -> S) client (a : Async R) :
  settle client (Async_map f a) = f (settle client a).
Proof. now destruct a. Qed.

Lemma is_text_true v text : is_text v text = true <-> v = VStr text.
Proof.
  destruct v; simpl; try (split; [discriminate | congruence]).
  rewrite String.eqb_eq. split; congruence.
Qed.


(** A provider call that rejects throws at the [await], inside the [try]. *)
Lemma provider_rejection_is_thrown rt key tool_parameters e :
  match geocode_tool rt key tool_parameters with
  | AwaitGeocode _ k => k (Rejected e) = Thrown e
  | _ => True
  end /\
  match places_search_tool rt key tool_parameters with
  | AwaitPlacesNearby _ k => k (Rejected e) = Thrown e
  | _ => True
  end.
Proof.
  unfold geocode_tool, places_search_tool.
  split; now destruct (parse rt _ tool_parameters).
Qed.

(** ** C1: nothing escapes the try/catch *)

(** C1, as stated, fails.  The destructuring of [req.body] stands before
    the [try]: for a request that reaches the handler with no decoded body,
    its TypeError leaves the handler uncaught and no envelope is sent. *)
Lemma undecoded_body_is_not_caught :
  mcp plain_runtime None "generated" startup
    {| mcp_session_id := None; body := VUndefined |}
  = Thrown (TypeError plain_runtime (destructure_nullish VUndefined)).
Proof. reflexivity. Qed.

(** C1, amended.  For every request whose body was decoded ([req.body] is
    neither undefined nor null), the handler throws nothing: it answers
    once the provider call, if any, has settled.  When the [try] block
    returned a result the answer is that result with HTTP status 200; when
    it threw, whatever the cause, the answer is HTTP status 500 with an
    error of code -32603 whose message is the thrown error's own message,
    or 'Internal server error' when the thrown value is not an Error. *)
Theorem mcp_catches_every_failure rt key uuid h req client :
  nullish (body req) = false ->
  exists h' pending,
    mcp rt key uuid h req = Returned (h', pending) /\
    match settle client
            (snd (attempt rt key uuid h (mcp_session_id req)
                    (property (body req) "method") (property (body req) "params")))
    with
    | Returned r =>
        settle client pending =
          {| status := 200;
             json := {| jsonrpc := "2.0"; body_of := result_of r;
                        id_of := property (body req) "id" |} |}
    | Thrown e =>
        settle client pending =
          {| status := 500;
             json := {| jsonrpc := "2.0";
                        body_of :=
                          error_of (-32603)
                            match e with
                            | Error_ message => message
                            | NotAnError _ => "Internal server error"
                            end;
                        id_of := property (body req) "id" |} |}
    end.
Proof.
  intros Hbody. eexists _, _. split.
  - apply mcp_runs, Hbody.
  - rewrite settle_map. now destruct (settle client _) as [r | [m | v]].
Qed.

Lemma mcp_catches_every_failure_witness :
  exists h' pending,
    mcp plain_runtime None "uuid" startup
      {| mcp_session_id := None; body := VObj [("method", VStr "ping")] |}
      = Returned (h', pending) /\
    settle empty_client pending =
      {| status := 500;
         json := {| jsonrpc := "2.0";
                    body_of := error_of (-32603) "Unknown method: ping";
                    id_of := VUndefined |} |}.
Proof.
  destruct (mcp_catches_every_failure plain_runtime None "uuid" startup
              {| mcp_session_id := None; body := VObj [("method", VStr "ping")] |}
              empty_client eq_refl) as (h' & pending & Hrun & Hsent).
  exists h', pending. split; [exact Hrun | exact Hsent].
Defined.

(** ** C4: the request id in the response *)

(** Induction over a value and the values nested in it. *)
Lemma value_nested_ind (P : value -> Prop) :
  P VUndefined -> P VNull -> (forall b, P (VBool b)) -> (forall x, P (VNum x)) ->
  (forall s, P (VStr s)) ->
  (forall items, Forall P items -> P (VArr items)) ->
  (forall fields, Forall (fun field => P (snd field)) fields -> P (VObj fields)) ->
  forall v, P v.
Proof.
  intros Hundefined Hnull Hbool Hnum Hstr Harr Hobj.
  exact (fix nested (v : value) : P v :=
           match v with
           | VUndefined => Hundefined
           | VNull => Hnull
           | VBool b => Hbool b
           | VNum x => Hnum x
           | VStr s => Hstr s
           | VArr items =>
               Harr items
                 ((fix each (l : list value) : Forall P l :=
                     match l with
                     | [] => @List.Forall_nil _ P
                     | item :: rest => @List.Forall_cons _ P item rest (nested item) (each rest)
                     end) items)
           | VObj fields =>
               Hobj fields
                 ((fix each (l : list (string * value))
                     : Forall (fun field => P (snd field)) l :=
                     match l with
                     | [] => @List.Forall_nil _ (fun field => P (snd field))
                     | (k, item) :: rest =>
                         @List.Forall_cons _ (fun field => P (snd field)) (k, item) rest
                           (nested item) (each rest)
                     end) fields)
           end).
Qed.

Lemma read_back_intact v : sent_intact v = true -> read_back v = v.
Proof.
  induction v as [| | b | x | s | items IH | fields IH] using value_nested_ind;
    simpl; try reflexivity.
  - destruct x as [[]| | |]; simpl; try reflexivity; discriminate.
  - intros Hitems. f_equal.
    induction IH as [|item items Hitem _ IHitems]; [reflexivity|].
    simpl in Hitems |- *. apply andb_true_iff in Hitems as [Hintact Hrest].
    rewrite (IHitems Hrest).
    destruct item; try discriminate; cbv beta iota in Hintact |- *;
      now rewrite (Hitem Hintact).
  - intros Hfields. f_equal.
    induction IH as [|[k item] fields Hitem _ IHfields]; [reflexivity|].
    simpl in Hfields, Hitem |- *. apply andb_true_iff in Hfields as [Hintact Hrest].
    rewrite (IHfields Hrest).
    destruct item; try discriminate; cbv beta iota in Hintact |- *;
      now rewrite (Hitem Hintact).
Qed.

(** C4, as stated, fails.  The id 1e400 is decoded as Infinity, which
    [res.json] sends as null: the client reads an id other than the one it
    sent.  And a request with no decoded body gets no envelope at all. *)
Lemma infinite_id_is_sent_as_null :
  (exists h' pending,
      mcp plain_runtime None "generated" startup
        (request None "terminate" (VNum (S754_infinity false)))
      = Returned (h', pending) /\
      property (body (request None "terminate" (VNum (S754_infinity false)))) "id"
      = VNum (S754_infinity false) /\
      read_back (id_of (json (settle empty_client pending))) = VNull) /\
  mcp plain_runtime None "generated" startup
    {| mcp_session_id := None; body := VUndefined |}
  = Thrown (TypeError plain_runtime (destructure_nullish VUndefined)).
Proof.
  split; [|reflexivity].
  eexists _, _. split; [|split]; reflexivity.
Qed.

(** C4, amended.  For every request whose body was decoded, the [id] the
    handler puts in the response envelope is the [id] decoded from the
    request body, on the result path and on the error path alike; an absent
    id ([undefined]) and a null id are kept as they are.  Sent by
    [res.json], it reads back as that same value whenever the decoded id
    holds no infinite number, no NaN and no negative zero. *)
Theorem mcp_echoes_id rt key uuid h req client :
  nullish (body req) = false ->
  exists h' pending,
    mcp rt key uuid h req = Returned (h', pending) /\
    id_of (json (settle client pending)) = property (body req) "id" /\
    (sent_intact (property (body req) "id") = true ->
     read_back (id_of (json (settle client pending))) = property (body req) "id").
Proof.
  intros Hbody. eexists _, _. split; [apply mcp_runs, Hbody|].
  assert (Hecho : id_of (json (settle client
                     (Async_map (respond (property (body req) "id"))
                        (snd (attempt rt key uuid h (mcp_session_id req)
                                (property (body req) "method")
                                (property (body req) "params"))))))
                  = property (body req) "id").
  { rewrite settle_map. now destruct (settle client _). }
  split; [exact Hecho|].
  intros Hintact. rewrite Hecho. now apply read_back_intact.
Qed.

Lemma mcp_echoes_id_witness :
  exists h' pending,
    mcp plain_runtime None "uuid" startup
      {| mcp_session_id := None;
         body := VObj [("method", VStr "terminate"); ("id", VNull)] |}
      = Returned (h', pending) /\
    id_of (json (settle empty_client pending)) = VNull /\
    read_back (id_of (json (settle empty_client pending))) = VNull.
Proof.
  destruct (mcp_echoes_id plain_runtime None "uuid" startup
              {| mcp_session_id := None;
                 body := VObj [("method", VStr "terminate"); ("id", VNull)] |}
              empty_client eq_refl) as (h' & pending & Hrun & Hecho & Hsent).
  exists h', pending. split; [exact Hrun|]. split; [exact Hecho|].
  exact (Hsent eq_refl).
Defined.

(** ** Routing *)

Lemma mcp_callTool rt key uuid h req :
  property (body req) "method" = VStr "callTool" ->
  mcp rt key uuid h req =
    Returned
      (ensure_session h (resolve uuid (mcp_session_id req)),
       Async_map (respond (property (body req) "id"))
         (callTool rt key (property (body req) "params"))).
Proof.
  intros Hmethod.
  rewrite mcp_runs by (eapply property_text_not_nullish; exact Hmethod).
  unfold attempt. now rewrite Hmethod.
Qed.

Lemma callTool_geocode rt key params :
  property params "name" = VStr "geocode" ->
  callTool rt key params = geocode_tool rt key (property params "parameters").
Proof.
  intros Hname. unfold callTool.
  rewrite destructure_defined by (eapply property_text_not_nullish; exact Hname).
  now rewrite Hname.
Qed.

Lemma callTool_places_search rt key params :
  property params "name" = VStr "places-search" ->
  callTool rt key params = places_search_tool rt key (property params "parameters").
Proof.
  intros Hname. unfold callTool.
  rewrite destructure_defined by (eapply property_text_not_nullish; exact Hname).
  now rewrite Hname.
Qed.

(** ** What the geocode schema lets through *)

Lemma geocodeSchema_accepts input s :
  property input "address" = VStr s ->
  zod_parse geocodeSchema input = Some (VObj [("address", VStr s)]).
Proof.
  destruct input as [| | | | |items|fields]; simpl; try discriminate.
  destruct (own_property fields "address") as [v|]; simpl; [|discriminate].
  now intros ->.
Qed.

Lemma geocodeSchema_rejects input :
  (forall s, property input "address" <> VStr s) ->
  zod_parse geocodeSchema input = None.
Proof.
  destruct input as [| | | | |items|fields]; simpl; try reflexivity.
  destruct (own_property fields "address") as [[]|]; simpl; try reflexivity.
  intros H. now destruct (H s).
Qed.

(** ** C2: session resolution *)




(** ** C3: the address of a geocode call *)

(** C3, as stated, fails.  An empty address passes [geocodeSchema] and is
    forwarded to the provider as it is. *)
Lemma empty_address_is_forwarded :
  exists k,
    mcp plain_runtime (Some "secret") "generated" startup
      {| mcp_session_id := None;
         body := VObj [("method", VStr "callTool");
                       ("params",
                        VObj [("name", VStr "geocode");
                              ("parameters", VObj [("address", VStr "")])])] |}
    = Returned
        (ensure_session startup "generated",
         AwaitGeocode (VObj [("address", VStr ""); ("key", VStr "secret")]) k).
Proof. eexists. vm_compute. reflexivity. Qed.

(** C3, amended.  A geocode call whose [parameters] carry no [address], or
    one that is not text, fails with the validation error before any
    provider call, and is answered with status 500; otherwise the provider
    is called with the address, which is text but may be empty. *)
Theorem geocode_address_is_text rt key uuid h req :
  property (body req) "method" = VStr "callTool" ->
  property (property (body req) "params") "name" = VStr "geocode" ->
  ((forall s,
      property (property (property (body req) "params") "parameters") "address"
      <> VStr s) /\
   mcp rt key uuid h req
   = Returned
       (ensure_session h (resolve uuid (mcp_session_id req)),
        Now {| status := 500;
               json :=
                 {| jsonrpc := "2.0";
                    body_of :=
                      error_of (-32603)
                        (ZodError_message rt geocodeSchema
                           (property (property (body req) "params") "parameters"));
                    id_of := property (body req) "id" |} |}))
  \/
  (exists s k,
      property (property (property (body req) "params") "parameters") "address"
      = VStr s /\
      mcp rt key uuid h req
      = Returned
          (ensure_session h (resolve uuid (mcp_session_id req)),
           AwaitGeocode (VObj [("address", VStr s); ("key", provider_key key)]) k)).
Proof.
  intros Hmethod Hname.
  rewrite (mcp_callTool _ _ _ _ _ Hmethod), (callTool_geocode _ _ _ Hname).
  unfold geocode_tool, parse.
  set (input := property (property (body req) "params") "parameters").
  destruct (property input "address") as [| | | |s| |] eqn:Haddress;
    try (left; split; [discriminate|];
         rewrite geocodeSchema_rejects by (rewrite Haddress; discriminate);
         reflexivity).
  right. exists s. eexists. split; [reflexivity|].
  rewrite (geocodeSchema_accepts _ _ Haddress). reflexivity.
Qed.

Lemma geocode_address_is_text_witness :
  exists s k,
    mcp plain_runtime None "generated" startup
      (call None "geocode" (VObj [("address", VStr "Paris")]) VNull)
    = Returned
        (ensure_session startup "generated",
         AwaitGeocode (VObj [("address", VStr s); ("key", VUndefined)]) k).
Proof.
  destruct (geocode_address_is_text plain_runtime None "generated" startup
              (call None "geocode" (VObj [("address", VStr "Paris")]) VNull)
              eq_refl eq_refl) as [[Hnot _] | (s & k & _ & Hrun)].
  - destruct (Hnot "Paris" eq_refl).
  - exists s, k. exact Hrun.
Defined.

(** ** What the places-search schema lets through *)

Lemma placesSearchSchema_parsed input parsed :
  zod_parse placesSearchSchema input = Some parsed ->
  (exists q, property input "query" = VStr q /\ property parsed "query" = VStr q) /\
  property parsed "radius" = property input "radius" /\
  (property input "radius" = VUndefined \/
   exists x, property input "radius" = VNum x /\ x <> S754_nan) /\
  (property input "location" = VUndefined -> property parsed "location" = VUndefined) /\
  (property input "location" <> VUndefined ->
   exists la ln,
     property parsed "location" = VObj [("lat", VNum la); ("lng", VNum ln)] /\
     property (property input "location") "lat" = VNum la /\
     property (property input "location") "lng" = VNum ln).
Proof.
  destruct input as [| | | | |items|fields]; try discriminate. cbn.
  destruct (own_property fields "query") as [[| | | |q| |]|]; cbn; try discriminate.
  destruct (own_property fields "radius") as [[| | |[]| | |]|]; cbn;
    try (destruct (own_property fields "location") as [[| | | | | |place]|]; cbn;
         discriminate).
  all: destruct (own_property fields "location") as [[| | | | | |place]|]; cbn;
    try discriminate.
  all: try (destruct (own_property place "lat") as [[| | |[]| | |]|]; cbn;
            try discriminate;
            destruct (own_property place "lng") as [[| | |[]| | |]|]; cbn;
            try discriminate).
  all: intros [= <-]; cbn.
  all: repeat split; eauto; try congruence.
  all: try (right; eexists; split; [reflexivity | discriminate]).
  all: try (intros _; eexists _, _; repeat split; reflexivity).
Qed.

Lemma or_else_undefined b : or_else VUndefined b = b.
Proof. reflexivity. Qed.

(** A valid places-search call runs up to the provider call. *)
Lemma mcp_places_search rt key uuid h req parsed :
  property (body req) "method" = VStr "callTool" ->
  property (property (body req) "params") "name" = VStr "places-search" ->
  zod_parse placesSearchSchema
    (property (property (body req) "params") "parameters") = Some parsed ->
  mcp rt key uuid h req
  = Returned
      (ensure_session h (resolve uuid (mcp_session_id req)),
       AwaitPlacesNearby
         (VObj [("location",
                 or_else (property parsed "location")
                   (VObj [("lat", VNum (number_of_Z 0)); ("lng", VNum (number_of_Z 0))]));
                ("radius", or_else (property parsed "radius") (VNum (number_of_Z 5000)));
                ("keyword", property parsed "query");
                ("key", provider_key key)])
         (fun response =>
            respond (property (body req) "id")
              match response with
              | Rejected e => Thrown e
              | Fulfilled results =>
                  Returned
                    (tool_result
                       [text_content
                          ("Found " ++ length_text (length results) ++ " places");
                        json_content (places_data (map summary results))])
              end)).
Proof.
  intros Hmethod Hname Hvalid.
  rewrite (mcp_callTool _ _ _ _ _ Hmethod), (callTool_places_search _ _ _ Hname).
  unfold places_search_tool, parse. now rewrite Hvalid.
Qed.

(** ** C5: defaults of a places search, and the count it reports *)



(** ** C10: a radius of zero *)

(** C10. For every places-search call with valid parameters the radius sent
    to the provider is 5000 when the supplied [radius] is zero (of either
    sign), as it is when [radius] is omitted; and the radius sent is never
    zero. *)
Theorem zero_radius_is_replaced rt key uuid h req parsed :
  property (body req) "method" = VStr "callTool" ->
  property (property (body req) "params") "name" = VStr "places-search" ->
  zod_parse placesSearchSchema
    (property (property (body req) "params") "parameters") = Some parsed ->
  exists query location radius k,
    mcp rt key uuid h req
    = Returned
        (ensure_session h (resolve uuid (mcp_session_id req)),
         AwaitPlacesNearby
           (VObj [("location", location); ("radius", radius);
                  ("keyword", query); ("key", provider_key key)]) k) /\
    (forall sign,
        property (property (property (body req) "params") "parameters") "radius"
        = VNum (S754_zero sign) ->
        radius = VNum (number_of_Z 5000)) /\
    (property (property (property (body req) "params") "parameters") "radius"
     = VUndefined ->
     radius = VNum (number_of_Z 5000)) /\
    (forall sign, radius <> VNum (S754_zero sign)).
Proof.
  intros Hmethod Hname Hvalid.
  destruct (placesSearchSchema_parsed _ _ Hvalid) as (_ & Hradius & Hnumber & _).
  eexists _, _, _, _. split; [|split; [|split]].
  - apply (mcp_places_search _ _ _ _ _ _ Hmethod Hname Hvalid).
  - intros sign Hzero. now rewrite Hradius, Hzero.
  - intros Homitted. now rewrite Hradius, Homitted.
  - intros sign. rewrite Hradius.
    destruct Hnumber as [-> | (x & -> & _)]; [discriminate|].
    now destruct x.
Qed.

Lemma zero_radius_is_replaced_witness :
  exists query location k,
    mcp plain_runtime None "generated" startup
      (call None "places-search"
         (VObj [("query", VStr "coffee"); ("radius", VNum (S754_zero false))]) VNull)
    = Returned
        (ensure_session startup "generated",
         AwaitPlacesNearby
           (VObj [("location", location); ("radius", VNum (number_of_Z 5000));
                  ("keyword", query); ("key", VUndefined)]) k).
Proof.
  destruct (zero_radius_is_replaced plain_runtime None "generated" startup
              (call None "places-search"
                 (VObj [("query", VStr "coffee"); ("radius", VNum (S754_zero false))])
                 VNull)
              (VObj [("query", VStr "coffee"); ("radius", VNum (S754_zero false))])
              eq_refl eq_refl eq_refl)
    as (query & location & radius & k & Hrun & Hzero & _).
  rewrite (Hzero false eq_refl) in Hrun.
  exists query, location, k. exact Hrun.
Defined.

(** ** C6: a geocode call that finds nothing *)

(** C6. For every geocode call with a text address, the provider's geocoding
    is called with that address; when it answers with no result, the
    response is the error envelope of the catch block: status 500, code
    -32603, message 'No results found'. *)
Theorem geocode_no_results rt key uuid h req address :
  property (body req) "method" = VStr "callTool" ->
  property (property (body req) "params") "name" = VStr "geocode" ->
  property (property (property (body req) "params") "parameters") "address"
  = VStr address ->
  exists k,
    mcp rt key uuid h req
    = Returned
        (ensure_session h (resolve uuid (mcp_session_id req)),
         AwaitGeocode (VObj [("address", VStr address); ("key", provider_key key)]) k) /\
    k (Fulfilled [])
    = {| status := 500;
         json := {| jsonrpc := "2.0";
                    body_of := error_of (-32603) "No results found";
                    id_of := property (body req) "id" |} |}.
Proof.
  intros Hmethod Hname Haddress.
  rewrite (mcp_callTool _ _ _ _ _ Hmethod), (callTool_geocode _ _ _ Hname).
  unfold geocode_tool, parse.
  rewrite (geocodeSchema_accepts _ _ Haddress).
  eexists. split; reflexivity.
Qed.

Lemma geocode_no_results_witness :
  exists h' pending,
    mcp plain_runtime None "generated" startup
      (call None "geocode" (VObj [("address", VStr "Atlantis")]) (VStr "q1"))
    = Returned (h', pending) /\
    settle empty_client pending
    = {| status := 500;
         json := {| jsonrpc := "2.0";
                    body_of := error_of (-32603) "No results found";
                    id_of := VStr "q1" |} |}.
Proof.
  destruct (geocode_no_results plain_runtime None "generated" startup
              (call None "geocode" (VObj [("address", VStr "Atlantis")]) (VStr "q1"))
              "Atlantis" eq_refl eq_refl eq_refl) as (k & Hrun & Hnone).
  eexists _, _. split; [exact Hrun | exact Hnone].
Defined.

(** ** C7: terminate *)

Lemma ensure_session_other h sid k :
  k <> sid -> sessions (ensure_session h sid) !! k = sessions h !! k.
Proof.
  intros Hne. unfold ensure_session.
  destruct (sessions_get h sid); simpl; try reflexivity.
  now apply lookup_insert_ne.
Qed.

Lemma delete_ensure_session h sid :
  sessions h !! sid = None ->
  delete_session (ensure_session h sid) sid = h.
Proof.
  intros Hnone. unfold delete_session, ensure_session.
  destruct h as [own marks]. simpl in *.
  destruct (sessions_get _ sid); simpl; f_equal;
    (apply delete_insert_id || apply delete_id); exact Hnone.
Qed.



(** ** C8: initialize *)

(** For a token that resolves to a session record, stored before or just
    created, initialize answers with the server identity, the token and the
    two tool descriptors, and leaves the record flagged. *)
Lemma initialize_session_record rt key uuid h req :
  property (body req) "method" = VStr "initialize" ->
  (sessions_get h (resolve uuid (mcp_session_id req)) = nothing \/
   exists s, sessions h !! resolve uuid (mcp_session_id req) = Some s) ->
  exists h',
    mcp rt key uuid h req
    = Returned
        (h',
         Now {| status := 200;
                json :=
                  {| jsonrpc := "2.0";
                     body_of :=
                       result_of
                         (initialize_result "google-maps-mcp" "1.0.0"
                            (resolve uuid (mcp_session_id req))
                            [ {| tool_name := "geocode";
                                 description := "Convert an address to coordinates";
                                 parameters := geocodeSchema |};
                              {| tool_name := "places-search";
                                 description :=
                                   "Search for places using Google Places API";
                                 parameters := placesSearchSchema |} ]);
                     id_of := property (body req) "id" |} |}) /\
    sessions h' !! resolve uuid (mcp_session_id req) = Some {| initialized := true |}.
Proof.
  intros Hmethod Hordinary.
  rewrite mcp_runs by (eapply property_text_not_nullish; exact Hmethod).
  unfold attempt. rewrite Hmethod. simpl is_text. cbv iota.
  set (sid := resolve uuid (mcp_session_id req)) in *.
  assert (Hrecord : exists s, sessions (ensure_session h sid) !! sid = Some s).
  { unfold ensure_session. destruct Hordinary as [-> | [s Hs]].
    - eexists. apply lookup_insert_eq.
    - unfold sessions_get. rewrite Hs. eauto. }
  destruct Hrecord as [s Hs].
  unfold set_initialized, sessions_get. rewrite Hs. simpl.
  eexists. split; [reflexivity|]. apply lookup_insert_eq.
Qed.

(** C8, evaluated where it fails.  The token "constructor" names a property
    that [sessions] inherits from Object.prototype: initialize answers as
    for a session, but no session record is stored or flagged; the flag
    lands on the built-in behind the name.  After the same with the token
    "__proto__", [sessions.initialized] is the inherited [true], and
    initialize with the token "initialized" is answered with status 500. *)
Theorem initialize_on_inherited_names :
  (mcp plain_runtime None "generated" startup
     (request (Some "constructor") "initialize" VNull)
   = Returned
       ({| sessions := ∅; flagged := {["constructor"]} |},
        Now (success
               (initialize_result "google-maps-mcp" "1.0.0" "constructor" tools_list)
               VNull))) /\
  (mcp plain_runtime None "generated" startup
     (request (Some "__proto__") "initialize" VNull)
   = Returned
       ({| sessions := ∅; flagged := {["__proto__"]} |},
        Now (success
               (initialize_result "google-maps-mcp" "1.0.0" "__proto__" tools_list)
               VNull))) /\
  (mcp plain_runtime None "generated"
     {| sessions := ∅; flagged := {["__proto__"]} |}
     (request (Some "initialized") "initialize" VNull)
   = Returned
       ({| sessions := ∅; flagged := {["__proto__"]} |},
        Now {| status := 500;
               json :=
                 {| jsonrpc := "2.0";
                    body_of :=
                      error_of (-32603)
                        (TypeError_message plain_runtime property_on_primitive);
                    id_of := VNull |} |})).
Proof. repeat split; vm_compute; reflexivity. Qed.

(** ** C9: unknown methods and unknown tools *)

(** Whatever stands for the method, once it is none of the three known
    texts the response is the error envelope; its message names the method
    whenever the method has a text form. *)
Lemma unknown_method_any_value rt key uuid h req :
  nullish (body req) = false ->
  is_text (property (body req) "method") "initialize" = false ->
  is_text (property (body req) "method") "callTool" = false ->
  is_text (property (body req) "method") "terminate" = false ->
  mcp rt key uuid h req
  = Returned
      (ensure_session h (resolve uuid (mcp_session_id req)),
       Now {| status := 500;
              json :=
                {| jsonrpc := "2.0";
                   body_of :=
                     error_of (-32603)
                       match ToString rt (property (body req) "method") with
                       | Returned text => "Unknown method: " ++ text
                       | Thrown e => message_of e
                       end;
                   id_of := property (body req) "id" |} |}).
Proof.
  intros Hbody Hinit Hcall Hterm. rewrite (mcp_runs _ _ _ _ _ Hbody).
  unfold attempt. rewrite Hinit, Hcall, Hterm. simpl.
  now destruct (ToString rt _).
Qed.





(** * Further properties of the handler *)

(** ** The tool results *)

Lemma mcp_geocode rt key uuid h req address :
  property (body req) "method" = VStr "callTool" ->
  property (property (body req) "params") "name" = VStr "geocode" ->
  property (property (property (body req) "params") "parameters") "address"
  = VStr address ->
  mcp rt key uuid h req
  = Returned
      (ensure_session h (resolve uuid (mcp_session_id req)),
       AwaitGeocode (VObj [("address", VStr address); ("key", provider_key key)])
         (fun response =>
            respond (property (body req) "id")
              match response with
              | Rejected e => Thrown e
              | Fulfilled [] => Thrown (Error_ "No results found")
              | Fulfilled (first :: _) =>
                  Returned
                    (tool_result
                       [text_content
                          ("Found location: " ++ GeocodeResult.formatted_address first);
                        json_content
                          (geocode_data
                             (location (GeocodeResult.geometry first))
                             (GeocodeResult.formatted_address first)
                             (GeocodeResult.place_id first))])
              end)).
Proof.
  intros Hmethod Hname Haddress.
  rewrite (mcp_callTool _ _ _ _ _ Hmethod), (callTool_geocode _ _ _ Hname).
  unfold geocode_tool, parse.
  now rewrite (geocodeSchema_accepts _ _ Haddress).
Qed.

(** X1. When the provider answers a geocode call with at least one result,
    the response has status 200 and is built from the first result alone:
    the text 'Found location: ' followed by its formatted address, then its
    location, formatted address and place id.  Further results change
    nothing. *)
Theorem geocode_uses_first_result rt key uuid h req address :
  property (body req) "method" = VStr "callTool" ->
  property (property (body req) "params") "name" = VStr "geocode" ->
  property (property (property (body req) "params") "parameters") "address"
  = VStr address ->
  exists params k,
    mcp rt key uuid h req
    = Returned
        (ensure_session h (resolve uuid (mcp_session_id req)),
         AwaitGeocode params k) /\
    forall first others,
      k (Fulfilled (first :: others))
      = {| status := 200;
           json :=
             {| jsonrpc := "2.0";
                body_of :=
                  result_of
                    (tool_result
                       [text_content
                          ("Found location: " ++ GeocodeResult.formatted_address first);
                        json_content
                          (geocode_data
                             (location (GeocodeResult.geometry first))
                             (GeocodeResult.formatted_address first)
                             (GeocodeResult.place_id first))]);
                id_of := property (body req) "id" |} |}.
Proof.
  intros Hmethod Hname Haddress.
  rewrite (mcp_geocode _ _ _ _ _ _ Hmethod Hname Haddress).
  eexists _, _. split; reflexivity.
Qed.

Lemma geocode_uses_first_result_witness :
  exists h' pending,
    mcp plain_runtime None "generated" startup
      (call None "geocode" (VObj [("address", VStr "Paris")]) (VStr "q2"))
    = Returned (h', pending) /\
    settle
      {| geocode := fun _ =>
           Fulfilled
             [ {| GeocodeResult.formatted_address := "Paris, France";
                  GeocodeResult.geometry :=
                    {| location := {| lat := number_of_Z 48; lng := number_of_Z 2 |} |};
                  GeocodeResult.place_id := "p1" |};
               {| GeocodeResult.formatted_address := "Paris, TX, USA";
                  GeocodeResult.geometry :=
                    {| location := {| lat := number_of_Z 33; lng := number_of_Z (-95) |} |};
                  GeocodeResult.place_id := "p2" |} ];
         placesNearby := fun _ => Fulfilled [] |}
      pending
    = success
        (tool_result
           [text_content "Found location: Paris, France";
            json_content
              (geocode_data {| lat := number_of_Z 48; lng := number_of_Z 2 |}
                 "Paris, France" "p1")])
        (VStr "q2").
Proof.
  destruct (geocode_uses_first_result plain_runtime None "generated" startup
              (call None "geocode" (VObj [("address", VStr "Paris")]) (VStr "q2"))
              "Paris" eq_refl eq_refl eq_refl) as (params & k & Hrun & Hfirst).
  eexists _, _. split; [exact Hrun|]. apply Hfirst.
Defined.

(** X2. A provider call that rejects, for either tool, is answered with
    status 500 and code -32603; the message is the rejection's own message
    when it is an Error, and 'Internal server error' otherwise. *)
Theorem provider_failure_is_reported rt key uuid h req e :
  property (body req) "method" = VStr "callTool" ->
  (property (property (body req) "params") "name" = VStr "geocode" /\
   (exists address,
       property (property (property (body req) "params") "parameters") "address"
       = VStr address)) \/
  (property (property (body req) "params") "name" = VStr "places-search" /\
   (exists parsed,
       zod_parse placesSearchSchema
         (property (property (body req) "params") "parameters") = Some parsed)) ->
  exists h' pending,
    mcp rt key uuid h req = Returned (h', pending) /\
    forall client,
      (forall params, geocode client params = Rejected e) ->
      (forall params, placesNearby client params = Rejected e) ->
      settle client pending
      = {| status := 500;
           json :=
             {| jsonrpc := "2.0";
                body_of :=
                  error_of (-32603)
                    match e with
                    | Error_ message => message
                    | NotAnError _ => "Internal server error"
                    end;
                id_of := property (body req) "id" |} |}.
Proof.
  intros Hmethod [[Hname [address Haddress]] | [Hname [parsed Hvalid]]].
  - rewrite (mcp_geocode _ _ _ _ _ _ Hmethod Hname Haddress).
    eexists _, _. split; [reflexivity|].
    intros client Hgeocode _. simpl. rewrite Hgeocode. now destruct e.
  - rewrite (mcp_places_search _ _ _ _ _ _ Hmethod Hname Hvalid).
    eexists _, _. split; [reflexivity|].
    intros client _ Hplaces. simpl. rewrite Hplaces. now destruct e.
Qed.

Lemma provider_failure_is_reported_witness :
  exists h' pending,
    mcp plain_runtime None "generated" startup
      (call None "places-search" (VObj [("query", VStr "coffee")]) VNull)
    = Returned (h', pending) /\
    settle
      {| geocode := fun _ => Rejected (NotAnError (VStr "timeout"));
         placesNearby := fun _ => Rejected (NotAnError (VStr "timeout")) |}
      pending
    = {| status := 500;
         json := {| jsonrpc := "2.0";
                    body_of := error_of (-32603) "Internal server error";
                    id_of := VNull |} |}.
Proof.
  destruct (provider_failure_is_reported plain_runtime None "generated" startup
              (call None "places-search" (VObj [("query", VStr "coffee")]) VNull)
              (NotAnError (VStr "timeout")) eq_refl
              (or_intror (conj eq_refl (ex_intro _ _ eq_refl))))
    as (h' & pending & Hrun & Hsettle).
  exists h', pending. split; [exact Hrun|].
  apply Hsettle; reflexivity.
Defined.

(** ** Validation of a places search *)

Lemma placesSearchSchema_valid input :
  (exists q, property input "query" = VStr q) ->
  (property input "radius" = VUndefined \/
   exists x, property input "radius" = VNum x /\ x <> S754_nan) ->
  (property input "location" = VUndefined \/
   exists la ln,
     property (property input "location") "lat" = VNum la /\ la <> S754_nan /\
     property (property input "location") "lng" = VNum ln /\ ln <> S754_nan) ->
  exists parsed, zod_parse placesSearchSchema input = Some parsed.
Proof.
  intros [q Hq] Hradius Hlocation.
  destruct input as [| | | | |items|fields]; try discriminate.
  cbn in Hq, Hradius, Hlocation |- *.
  destruct (own_property fields "query") as [v|]; cbn in Hq; [|discriminate].
  subst v. cbn.
  assert (Hr : own_property fields "radius" = None \/
               own_property fields "radius" = Some VUndefined \/
               exists x, own_property fields "radius" = Some (VNum x) /\ x <> S754_nan).
  { destruct (own_property fields "radius") as [r|]; [|now left]. right.
    destruct Hradius as [Hr | (x & Hr & Hx)]; cbn in Hr; subst r; eauto. }
  assert (Hl : own_property fields "location" = None \/
               own_property fields "location" = Some VUndefined \/
               exists place la ln,
                 own_property fields "location" = Some (VObj place) /\
                 own_property place "lat" = Some (VNum la) /\ la <> S754_nan /\
                 own_property place "lng" = Some (VNum ln) /\ ln <> S754_nan).
  { destruct (own_property fields "location") as [l|]; [|now left]. right.
    destruct Hlocation as [Hl | (la & ln & Hla & Hlan & Hln & Hlnn)]; cbn in *.
    - subst l. now left.
    - right. destruct l as [| | | | |items'|place]; try discriminate. cbn in *.
      destruct (own_property place "lat") as [a|] eqn:Ea; [|discriminate].
      destruct (own_property place "lng") as [b|] eqn:Eb; [|discriminate].
      cbn in *. subst a b. exists place, la, ln. repeat split; trivial. }
  clear Hradius Hlocation.
  destruct Hr as [Hr | [Hr | (x & Hr & Hx)]];
    destruct Hl as [Hl | [Hl | (place & la & ln & Hl & Hlat & Hla & Hlng & Hln)]];
    rewrite Hr, Hl; cbn; rewrite ?Hlat; cbn; rewrite ?Hlng; cbn;
    try (destruct x; try congruence); try (destruct la; try congruence);
    try (destruct ln; try congruence); cbn; eauto.
Qed.

Lemma placesSearchSchema_parsed_valid input parsed :
  zod_parse placesSearchSchema input = Some parsed ->
  (exists q, property input "query" = VStr q) /\
  (property input "radius" = VUndefined \/
   exists x, property input "radius" = VNum x /\ x <> S754_nan) /\
  (property input "location" = VUndefined \/
   exists la ln,
     property (property input "location") "lat" = VNum la /\ la <> S754_nan /\
     property (property input "location") "lng" = VNum ln /\ ln <> S754_nan).
Proof.
  destruct input as [| | | | |items|fields]; try discriminate. cbn.
  destruct (own_property fields "query") as [[| | | |q| |]|]; cbn; try discriminate.
  destruct (own_property fields "radius") as [[| | |[]| | |]|]; cbn;
    try (destruct (own_property fields "location") as [[| | | | | |place]|]; cbn;
         discriminate).
  all: destruct (own_property fields "location") as [[| | | | | |place]|]; cbn;
    try discriminate.
  all: try (destruct (own_property place "lat") as [[| | |[]| | |]|]; cbn;
            try discriminate;
            destruct (own_property place "lng") as [[| | |[]| | |]|]; cbn;
            try discriminate).
  all: intros _; split; [eauto|split].
  all: try (now left).
  all: right; repeat eexists; discriminate.
Qed.

(** X3. A places-search call reaches the provider exactly when its
    parameters hold a text [query], a [radius] that is absent or a number,
    and a [location] that is absent or an object with numbers under [lat]
    and [lng].  Any other parameters, a null radius or a location without
    [lng] among them, are answered at once with status 500, code -32603 and
    the validation error's message, and the provider is not called. *)
Theorem places_search_is_validated rt key uuid h req :
  property (body req) "method" = VStr "callTool" ->
  property (property (body req) "params") "name" = VStr "places-search" ->
  ((exists q,
       property (property (property (body req) "params") "parameters") "query"
       = VStr q) /\
   (property (property (property (body req) "params") "parameters") "radius"
    = VUndefined \/
    exists x,
      property (property (property (body req) "params") "parameters") "radius"
      = VNum x /\ x <> S754_nan) /\
   (property (property (property (body req) "params") "parameters") "location"
    = VUndefined \/
    exists la ln,
      property
        (property (property (property (body req) "params") "parameters") "location")
        "lat" = VNum la /\ la <> S754_nan /\
      property
        (property (property (property (body req) "params") "parameters") "location")
        "lng" = VNum ln /\ ln <> S754_nan) /\
   exists params k,
     mcp rt key uuid h req
     = Returned
         (ensure_session h (resolve uuid (mcp_session_id req)),
          AwaitPlacesNearby params k))
  \/
  (~ ((exists q,
          property (property (property (body req) "params") "parameters") "query"
          = VStr q) /\
      (property (property (property (body req) "params") "parameters") "radius"
       = VUndefined \/
       exists x,
         property (property (property (body req) "params") "parameters") "radius"
         = VNum x /\ x <> S754_nan) /\
      (property (property (property (body req) "params") "parameters") "location"
       = VUndefined \/
       exists la ln,
         property
           (property (property (property (body req) "params") "parameters")
              "location")
           "lat" = VNum la /\ la <> S754_nan /\
         property
           (property (property (property (body req) "params") "parameters")
              "location")
           "lng" = VNum ln /\ ln <> S754_nan)) /\
   mcp rt key uuid h req
   = Returned
       (ensure_session h (resolve uuid (mcp_session_id req)),
        Now {| status := 500;
               json :=
                 {| jsonrpc := "2.0";
                    body_of :=
                      error_of (-32603)
                        (ZodError_message rt placesSearchSchema
                           (property (property (body req) "params") "parameters"));
                    id_of := property (body req) "id" |} |})).
Proof.
  intros Hmethod Hname.
  destruct (zod_parse placesSearchSchema
              (property (property (body req) "params") "parameters"))
    as [parsed|] eqn:Hparse.
  - left.
    destruct (placesSearchSchema_parsed_valid _ _ Hparse) as (Hq & Hradius & Hlocation).
    repeat (split; [assumption|]).
    rewrite (mcp_places_search _ _ _ _ _ _ Hmethod Hname Hparse). eauto.
  - right. split.
    + intros (Hq & Hradius & Hlocation).
      destruct (placesSearchSchema_valid _ Hq Hradius Hlocation) as [parsed Hvalid].
      congruence.
    + rewrite (mcp_callTool _ _ _ _ _ Hmethod), (callTool_places_search _ _ _ Hname).
      unfold places_search_tool, parse. now rewrite Hparse.
Qed.

Lemma places_search_is_validated_witness :
  mcp plain_runtime None "generated" startup
    (call None "places-search"
       (VObj [("query", VStr "coffee"); ("radius", VNull)]) (VStr "q3"))
  = Returned
      (ensure_session startup "generated",
       Now {| status := 500;
              json := {| jsonrpc := "2.0";
                         body_of := error_of (-32603) "ZodError";
                         id_of := VStr "q3" |} |}).
Proof.
  destruct (places_search_is_validated plain_runtime None "generated" startup
              (call None "places-search"
                 (VObj [("query", VStr "coffee"); ("radius", VNull)]) (VStr "q3"))
              eq_refl eq_refl) as [(_ & _ & _ & params & k & Hrun) | [_ Hrun]].
  - discriminate Hrun.
  - exact Hrun.
Defined.

(** X4. In a valid places-search call a supplied radius other than zero is
    sent to the provider as it is, whatever its sign or size, and a supplied
    location is sent as an object holding its [lat] and [lng] and nothing
    else. *)
Theorem places_search_forwards_supplied rt key uuid h req parsed :
  property (body req) "method" = VStr "callTool" ->
  property (property (body req) "params") "name" = VStr "places-search" ->
  zod_parse placesSearchSchema
    (property (property (body req) "params") "parameters") = Some parsed ->
  exists query location radius k,
    mcp rt key uuid h req
    = Returned
        (ensure_session h (resolve uuid (mcp_session_id req)),
         AwaitPlacesNearby
           (VObj [("location", location); ("radius", radius);
                  ("keyword", query); ("key", provider_key key)]) k) /\
    (forall x,
        property (property (property (body req) "params") "parameters") "radius"
        = VNum x ->
        (forall sign, x <> S754_zero sign) ->
        radius = VNum x) /\
    (property (property (property (body req) "params") "parameters") "location"
     <> VUndefined ->
     exists la ln,
       property
         (property (property (property (body req) "params") "parameters") "location")
         "lat" = VNum la /\
       property
         (property (property (property (body req) "params") "parameters") "location")
         "lng" = VNum ln /\
       location = VObj [("lat", VNum la); ("lng", VNum ln)]).
Proof.
  intros Hmethod Hname Hvalid.
  destruct (placesSearchSchema_parsed _ _ Hvalid)
    as (_ & Hradius & Hnumber & _ & Hlocation).
  eexists _, _, _, _. split; [|split].
  - apply (mcp_places_search _ _ _ _ _ _ Hmethod Hname Hvalid).
  - intros x Hx Hnonzero. rewrite Hradius, Hx.
    destruct Hnumber as [Hn | (y & Hy & Hnan)]; [congruence|].
    assert (y = x) by congruence. subst y.
    destruct x; try reflexivity; [now destruct (Hnonzero s) | congruence].
  - intros Hsupplied. destruct (Hlocation Hsupplied) as (la & ln & Hparsed & Hla & Hln).
    exists la, ln. now rewrite Hparsed.
Qed.

Lemma places_search_forwards_supplied_witness :
  exists query location k,
    mcp plain_runtime None "generated" startup
      (call None "places-search"
         (VObj [("query", VStr "coffee");
                ("radius", VNum (number_of_Z (-1)))]) VNull)
    = Returned
        (ensure_session startup "generated",
         AwaitPlacesNearby
           (VObj [("location", location); ("radius", VNum (number_of_Z (-1)));
                  ("keyword", query); ("key", VUndefined)]) k).
Proof.
  destruct (places_search_forwards_supplied plain_runtime None "generated" startup
              (call None "places-search"
                 (VObj [("query", VStr "coffee");
                        ("radius", VNum (number_of_Z (-1)))]) VNull)
              (VObj [("query", VStr "coffee");
                     ("radius", VNum (number_of_Z (-1)))])
              eq_refl eq_refl eq_refl)
    as (query & location & radius & k & Hrun & Hradius & _).
  rewrite (Hradius (number_of_Z (-1)) eq_refl) in Hrun by discriminate.
  exists query, location, k. exact Hrun.
Defined.

(** ** What a request does to the session store *)

Lemma heap_after_runs rt key uuid h req :
  nullish (body req) = false ->
  heap_after rt key uuid h req
  = fst (attempt rt key uuid h (mcp_session_id req)
           (property (body req) "method") (property (body req) "params")).
Proof.
  intros Hbody. unfold heap_after. now rewrite (mcp_runs _ _ _ _ _ Hbody).
Qed.

Lemma heap_after_undecoded rt key uuid h req :
  nullish (body req) = true -> heap_after rt key uuid h req = h.
Proof.
  intros Hbody. unfold heap_after, mcp, destructure. now rewrite Hbody.
Qed.

Lemma ensure_session_flagged h sid : flagged (ensure_session h sid) = flagged h.
Proof. unfold ensure_session. now destruct (sessions_get h sid). Qed.

Lemma set_initialized_other rt h h' sid k :
  set_initialized rt h sid = Returned h' ->
  k <> sid -> sessions h' !! k = sessions h !! k.
Proof.
  unfold set_initialized.
  destruct (sessions_get h sid); intros [= <-] Hne; simpl; try reflexivity.
  now apply lookup_insert_ne.
Qed.

Lemma set_initialized_flagged rt h h' sid :
  set_initialized rt h sid = Returned h' -> flagged h ⊆ flagged h'.
Proof.
  unfold set_initialized.
  destruct (sessions_get h sid); intros [= <-]; simpl; set_solver.
Qed.

Lemma heap_after_frame rt key uuid h req :
  (forall k, k <> resolve uuid (mcp_session_id req) ->
             sessions (heap_after rt key uuid h req) !! k = sessions h !! k) /\
  flagged h ⊆ flagged (heap_after rt key uuid h req).
Proof.
  destruct (nullish (body req)) eqn:Hbody.
  { rewrite (heap_after_undecoded _ _ _ _ _ Hbody). split; [reflexivity|set_solver]. }
  rewrite (heap_after_runs _ _ _ _ _ Hbody). unfold attempt.
  set (sid := resolve uuid (mcp_session_id req)).
  pose proof (ensure_session_flagged h sid) as Hflag.
  destruct (is_text _ "initialize").
  - destruct (set_initialized rt (ensure_session h sid) sid) as [h'|e] eqn:Hset; simpl.
    + split.
      * intros k Hne. rewrite (set_initialized_other _ _ _ _ _ Hset Hne).
        now apply ensure_session_other.
      * rewrite <- Hflag. exact (set_initialized_flagged _ _ _ _ Hset).
    + split; [intros k Hne; now apply ensure_session_other | now rewrite Hflag].
  - destruct (is_text _ "callTool"); [|destruct (is_text _ "terminate")]; simpl;
      (split; [intros k Hne; rewrite ?lookup_delete_ne by congruence;
               now apply ensure_session_other
              | now rewrite Hflag]).
Qed.

(** X5. Whatever a request is and however it ends, it leaves every session
    record stored under a token other than its own resolved token as it
    was, and it clears no flag set on a built-in. *)
Theorem other_sessions_are_untouched rt key uuid h req k :
  k <> resolve uuid (mcp_session_id req) ->
  sessions (heap_after rt key uuid h req) !! k = sessions h !! k /\
  flagged h ⊆ flagged (heap_after rt key uuid h req).
Proof.
  intros Hne. destruct (heap_after_frame rt key uuid h req) as [Hframe Hflags].
  split; [now apply Hframe | exact Hflags].
Qed.

Lemma other_sessions_are_untouched_witness :
  sessions
    (heap_after plain_runtime None "generated"
       {| sessions := {[ "7f3c" := {| initialized := true |} ]}; flagged := ∅ |}
       (request (Some "99aa") "terminate" VNull))
    !! "7f3c"
  = Some {| initialized := true |}.
Proof.
  refine (proj1 (other_sessions_are_untouched plain_runtime None "generated"
                   {| sessions := {[ "7f3c" := {| initialized := true |} ]};
                      flagged := ∅ |}
                   (request (Some "99aa") "terminate" VNull) "7f3c" _)).
  discriminate.
Defined.

Lemma ensure_session_known h sid s :
  sessions h !! sid = Some s -> ensure_session h sid = h.
Proof. intros Hs. unfold ensure_session, sessions_get. now rewrite Hs. Qed.

Lemma set_initialized_known rt h sid s :
  sessions h !! sid = Some s ->
  set_initialized rt h sid
  = Returned {| sessions := <[sid := {| initialized := true |}]> (sessions h);
                flagged := flagged h |}.
Proof. intros Hs. unfold set_initialized, sessions_get. now rewrite Hs. Qed.



(** ** The flag is written, never read *)

Lemma sessions_get_fmap (f : Session -> Session) h k :
  sessions_get {| sessions := f <$> sessions h; flagged := flagged h |} k
  = match sessions_get h k with
    | a_session s => a_session (f s)
    | other => other
    end.
Proof.
  unfold sessions_get. simpl. rewrite lookup_fmap.
  destruct (sessions h !! k); simpl; [reflexivity|].
  destruct (bool_decide (k ∈ Object_prototype_keys)); [reflexivity|].
  now destruct (bool_decide _).
Qed.

(** Whether [sessions[sessionId].initialized = true] throws is decided by
    what answered to the token before resolution. *)
Lemma set_initialized_after_resolution rt h sid :
  match sessions_get h sid with
  | inherited_true =>
      set_initialized rt (ensure_session h sid) sid
      = Thrown (TypeError rt property_on_primitive)
  | _ => exists h', set_initialized rt (ensure_session h sid) sid = Returned h'
  end.
Proof.
  unfold ensure_session. destruct (sessions_get h sid) eqn:Hslot.
  - unfold set_initialized. rewrite Hslot. eauto.
  - unfold set_initialized. rewrite Hslot. eauto.
  - unfold set_initialized. now rewrite Hslot.
  - unfold set_initialized, sessions_get. simpl. rewrite lookup_insert_eq. eauto.
Qed.

(** X7. No response depends on the [initialized] flag of any session:
    rewriting the stored records in any way, flags included, while keeping
    the tokens they are stored under, changes neither what the handler
    answers nor which provider call it issues.  In particular callTool is
    served the same before and after initialize. *)
Theorem responses_ignore_the_flag rt key uuid h req (f : Session -> Session) :
  match mcp rt key uuid h req,
        mcp rt key uuid {| sessions := f <$> sessions h; flagged := flagged h |} req
  with
  | Returned (_, pending), Returned (_, pending') => pending = pending'
  | Thrown e, Thrown e' => e = e'
  | _, _ => False
  end.
Proof.
  destruct (nullish (body req)) eqn:Hbody.
  { unfold mcp, destructure. now rewrite Hbody. }
  rewrite !(mcp_runs _ _ _ _ _ Hbody). cbv beta iota. f_equal. unfold attempt.
  set (sid := resolve uuid (mcp_session_id req)).
  set (method := property (body req) "method").
  destruct (is_text method "initialize");
    [|now destruct (is_text method "callTool"), (is_text method "terminate")].
  pose proof (set_initialized_after_resolution rt h sid) as H1.
  pose proof (set_initialized_after_resolution rt
                {| sessions := f <$> sessions h; flagged := flagged h |} sid) as H2.
  rewrite sessions_get_fmap in H2.
  destruct (sessions_get h sid);
    repeat match goal with
           | H : exists _, _ |- _ => destruct H as [? H]
           end;
    now rewrite H1, H2.
Qed.

(** ** Sequences of requests *)

(** Initialize on a token that resolves to a session record: the heap it
    leaves. *)
Lemma mcp_initialize_record rt key uuid h req :
  property (body req) "method" = VStr "initialize" ->
  (sessions_get h (resolve uuid (mcp_session_id req)) = nothing \/
   exists s, sessions h !! resolve uuid (mcp_session_id req) = Some s) ->
  mcp rt key uuid h req
  = Returned
      ({| sessions :=
            <[resolve uuid (mcp_session_id req) := {| initialized := true |}]>
              (sessions h);
          flagged := flagged h |},
       Now (success
              (initialize_result "google-maps-mcp" "1.0.0"
                 (resolve uuid (mcp_session_id req)) tools_list)
              (property (body req) "id"))).
Proof.
  intros Hmethod Hordinary.
  rewrite mcp_runs by (eapply property_text_not_nullish; exact Hmethod).
  unfold attempt. rewrite Hmethod. simpl is_text. cbv iota.
  set (sid := resolve uuid (mcp_session_id req)) in *.
  destruct Hordinary as [Hnothing | [s Hs]].
  - unfold ensure_session. rewrite Hnothing.
    erewrite set_initialized_known by (simpl; apply lookup_insert_eq).
    simpl. now rewrite insert_insert_eq.
  - rewrite (ensure_session_known _ _ _ Hs), (set_initialized_known _ _ _ _ Hs).
    reflexivity.
Qed.

(** X8. Initialize can be repeated: for a token that resolves to a session
    record, a second initialize for the same token is answered exactly as
    the first one was, and leaves the heap the first one left. *)
Theorem initialize_is_idempotent rt key uuid h req :
  property (body req) "method" = VStr "initialize" ->
  (sessions_get h (resolve uuid (mcp_session_id req)) = nothing \/
   exists s, sessions h !! resolve uuid (mcp_session_id req) = Some s) ->
  exists h' response,
    mcp rt key uuid h req = Returned (h', Now response) /\
    status response = 200 /\
    forall uuid',
      resolve uuid' (mcp_session_id req) = resolve uuid (mcp_session_id req) ->
      mcp rt key uuid' h' req = Returned (h', Now response).
Proof.
  intros Hmethod Hordinary.
  rewrite (mcp_initialize_record _ _ _ _ _ Hmethod Hordinary).
  eexists _, _. split; [reflexivity|]. split; [reflexivity|].
  intros uuid' Hsame. rewrite mcp_initialize_record; trivial.
  - rewrite Hsame. simpl. now rewrite insert_insert_eq.
  - right. rewrite Hsame. simpl. rewrite lookup_insert_eq. eauto.
Qed.

Lemma initialize_is_idempotent_witness :
  exists h' response,
    mcp plain_runtime None "generated" startup
      (request (Some "7f3c") "initialize" VNull)
    = Returned (h', Now response) /\
    mcp plain_runtime None "another" h' (request (Some "7f3c") "initialize" VNull)
    = Returned (h', Now response).
Proof.
  destruct (initialize_is_idempotent plain_runtime None "generated" startup
              (request (Some "7f3c") "initialize" VNull) eq_refl
              (or_introl eq_refl)) as (h' & response & Hrun & _ & Hagain).
  exists h', response. split; [exact Hrun|]. apply Hagain. reflexivity.
Defined.

(** X9. Terminate does not retire a token.  After terminate, the next
    request under the same token whose body was decoded and which is
    neither initialize nor terminate finds a fresh record with
    [initialized = false] stored for it, whatever the flag was before,
    provided the token is not a name the store inherits. *)
Theorem terminated_token_starts_over rt key uuid uuid' h req req' :
  property (body req) "method" = VStr "terminate" ->
  nullish (body req') = false ->
  is_text (property (body req') "method") "initialize" = false ->
  is_text (property (body req') "method") "terminate" = false ->
  resolve uuid' (mcp_session_id req') = resolve uuid (mcp_session_id req) ->
  resolve uuid (mcp_session_id req) ∉ Object_prototype_keys ->
  resolve uuid (mcp_session_id req) <> "initialized" ->
  sessions (heap_after rt key uuid' (heap_after rt key uuid h req) req')
    !! resolve uuid (mcp_session_id req)
  = Some {| initialized := false |}.
Proof.
  intros Hmethod Hbody' Hinit Hterm Hsame Hown Hname.
  rewrite (heap_after_runs _ _ _ _ _ Hbody'). unfold attempt at 1.
  rewrite Hinit, Hterm, Hsame.
  set (sid := resolve uuid (mcp_session_id req)) in *.
  assert (Hgone : sessions_get (heap_after rt key uuid h req) sid = nothing).
  { rewrite heap_after_runs by (eapply property_text_not_nullish; exact Hmethod).
    unfold attempt. rewrite Hmethod. simpl. fold sid.
    unfold sessions_get. simpl. rewrite lookup_delete_eq.
    rewrite bool_decide_eq_false_2 by exact Hown.
    rewrite bool_decide_eq_false_2 by (intros [? _]; contradiction).
    reflexivity. }
  assert (Hfresh : sessions (ensure_session (heap_after rt key uuid h req) sid) !! sid
                   = Some {| initialized := false |}).
  { unfold ensure_session. rewrite Hgone. simpl. apply lookup_insert_eq. }
  now destruct (is_text _ "callTool").
Qed.

Lemma terminated_token_starts_over_witness :
  sessions
    (heap_after plain_runtime None "generated"
       (heap_after plain_runtime None "generated"
          {| sessions := {[ "7f3c" := {| initialized := true |} ]}; flagged := ∅ |}
          (request (Some "7f3c") "terminate" VNull))
       (call (Some "7f3c") "geocode" (VObj [("address", VStr "Paris")]) VNull))
    !! "7f3c"
  = Some {| initialized := false |}.
Proof.
  apply (terminated_token_starts_over plain_runtime None "generated" "generated"
           {| sessions := {[ "7f3c" := {| initialized := true |} ]}; flagged := ∅ |}
           (request (Some "7f3c") "terminate" VNull)
           (call (Some "7f3c") "geocode" (VObj [("address", VStr "Paris")]) VNull));
    try reflexivity; try discriminate.
  apply (bool_decide_eq_false_1 _). reflexivity.
Defined.

(** X10. The store only shrinks by terminate.  A request whose body was
    decoded, which is not terminate and whose token nothing answers to adds
    exactly one record, whether the request then succeeds or fails; a
    terminate for such a token, and a request that reached the handler with
    no decoded body, leave the heap exactly as they found it. *)
Theorem unknown_token_adds_one_record rt key uuid h req :
  sessions_get h (resolve uuid (mcp_session_id req)) = nothing ->
  if nullish (body req) then heap_after rt key uuid h req = h
  else if is_text (property (body req) "method") "terminate"
       then heap_after rt key uuid h req = h
       else size (sessions (heap_after rt key uuid h req)) = S (size (sessions h)).
Proof.
  intros Hnothing.
  destruct (nullish (body req)) eqn:Hbody.
  { exact (heap_after_undecoded _ _ _ _ _ Hbody). }
  assert (Hnone : sessions h !! resolve uuid (mcp_session_id req) = None).
  { unfold sessions_get in Hnothing. now destruct (sessions h !! _). }
  rewrite (heap_after_runs _ _ _ _ _ Hbody). unfold attempt.
  set (sid := resolve uuid (mcp_session_id req)) in *.
  set (method := property (body req) "method").
  assert (Hgrown : size (sessions (ensure_session h sid)) = S (size (sessions h))).
  { unfold ensure_session. rewrite Hnothing. simpl. now apply map_size_insert_None. }
  destruct (is_text method "initialize") eqn:Hinit.
  - assert (Hterm : is_text method "terminate" = false).
    { apply is_text_true in Hinit. now rewrite Hinit. }
    rewrite Hterm. unfold ensure_session. rewrite Hnothing.
    erewrite set_initialized_known by (simpl; apply lookup_insert_eq).
    simpl. rewrite insert_insert_eq. now apply map_size_insert_None.
  - destruct (is_text method "callTool") eqn:Hcall.
    + assert (Hterm : is_text method "terminate" = false).
      { apply is_text_true in Hcall. now rewrite Hcall. }
      now rewrite Hterm.
    + destruct (is_text method "terminate"); simpl; [|exact Hgrown].
      now apply delete_ensure_session.
Qed.

Lemma unknown_token_adds_one_record_witness :
  size (sessions
          (heap_after plain_runtime None "generated" startup
             (request None "shutdown" VNull)))
  = S (size (sessions startup)).
Proof.
  exact (unknown_token_adds_one_record plain_runtime None "generated" startup
           (request None "shutdown" VNull) eq_refl).
Defined.

(** ** Names the store inherits *)

Lemma heap_after_inherited rt key uuid h req k :
  k ∈ Object_prototype_keys ->
  sessions h !! k = None ->
  sessions (heap_after rt key uuid h req) !! k = None.
Proof.
  intros Hin Hnone.
  destruct (decide (k = resolve uuid (mcp_session_id req))) as [->|Hne].
  2:{ now rewrite (proj1 (heap_after_frame rt key uuid h req) k Hne). }
  destruct (nullish (body req)) eqn:Hbody.
  { now rewrite (heap_after_undecoded _ _ _ _ _ Hbody). }
  rewrite (heap_after_runs _ _ _ _ _ Hbody). unfold attempt.
  set (sid := resolve uuid (mcp_session_id req)) in *.
  assert (Hslot : sessions_get h sid = a_builtin sid).
  { unfold sessions_get. rewrite Hnone. now rewrite bool_decide_eq_true_2. }
  assert (Hsame : ensure_session h sid = h).
  { unfold ensure_session. now rewrite Hslot. }
  rewrite Hsame.
  destruct (is_text _ "initialize").
  - unfold set_initialized. now rewrite Hslot.
  - destruct (is_text _ "callTool"); [exact Hnone|].
    destruct (is_text _ "terminate"); [apply lookup_delete_eq | exact Hnone].
Qed.

(** X11. From startup on, whatever requests arrive and in whatever order,
    no session record is ever stored under a name that [sessions] inherits
    from Object.prototype: such a token is answered without a record of its
    own. *)
Theorem inherited_names_hold_no_record rt key requests :
  Forall (fun k => sessions (serve rt key requests startup) !! k = None)
    Object_prototype_keys.
Proof.
  apply Forall_forall. intros k Hin.
  assert (Hstep : forall l h, sessions h !! k = None ->
                              sessions (serve rt key l h) !! k = None).
  { induction l as [|[uuid req] l IH]; intros h Hnone; [exact Hnone|].
    simpl. apply IH. now apply heap_after_inherited. }
  apply Hstep. apply lookup_empty.
Qed.

(** ** Methods that are not text *)

(** X12. Routing compares with [===]: a method that is not text is never
    routed, even one that prints as a known method.  The request is
    answered with status 500 and code -32603; the message is 'Unknown
    method: ' followed by the printed method, or the TypeError's message
    when the method has no printed form. *)
Theorem non_text_method_is_unknown rt key uuid h req :
  nullish (body req) = false ->
  (forall s, property (body req) "method" <> VStr s) ->
  mcp rt key uuid h req
  = Returned
      (ensure_session h (resolve uuid (mcp_session_id req)),
       Now {| status := 500;
              json :=
                {| jsonrpc := "2.0";
                   body_of :=
                     error_of (-32603)
                       match ToString rt (property (body req) "method") with
                       | Returned text => "Unknown method: " ++ text
                       | Thrown (Error_ message) => message
                       | Thrown (NotAnError _) => "Internal server error"
                       end;
                   id_of := property (body req) "id" |} |}).
Proof.
  intros Hbody Hmethod.
  rewrite unknown_method_any_value; trivial;
    try (destruct (property (body req) "method"); try reflexivity;
         now destruct (Hmethod s)).
Qed.

Lemma non_text_method_is_unknown_witness :
  mcp plain_runtime None "generated" startup
    {| mcp_session_id := None;
       body := VObj [("method", VArr [VStr "initialize"])] |}
  = Returned
      (ensure_session startup "generated",
       Now {| status := 500;
              json := {| jsonrpc := "2.0";
                         body_of := error_of (-32603) "Unknown method: initialize";
                         id_of := VUndefined |} |}).
Proof.
  apply (non_text_method_is_unknown plain_runtime None "generated" startup
           {| mcp_session_id := None;
              body := VObj [("method", VArr [VStr "initialize"])] |} eq_refl).
  discriminate.
Defined.
